(** * AbstractFactory/main.py: the GUI toolkit factories, verified

    A shallow embedding of [AbstractFactory/main.py] and the properties of
    its specification.

    The program is a Python module: three abstract base classes
    ([GUIToolkitFactory], [Button], [Checkbox]), two concrete subclasses of
    each, the function [client_code] and the script body under
    [if __name__ == "__main__"].

    Python is dynamically typed and late bound, so the embedding keeps the
    parts of the run time the program relies on:
    - values are [None], strings and references to objects on a heap;
    - a method call looks the name up along the class's method resolution
      order and fails with [AttributeError] when it is missing;
    - calling a class allocates an object, unless the class still has
      abstract methods ([ABCMeta] / [object.__new__]), which is a
      [TypeError];
    - [print] appends its argument and a line terminator to the standard
      output;
    - the nesting of calls is bounded (Python's recursion limit). *)

From Stdlib Require Import Ascii String Lia.
From stdpp Require Import base list strings.

Local Open Scope string_scope.

(** ** Classes and values *)

(** The classes of the module, and [ABC] which the three interfaces
    derive from. *)
Inductive cls :=
  | ABC
  | GUIToolkitFactory
  | WindowsGUIToolkitFactory
  | MacOSGUIToolkitFactory
  | Button
  | WindowsButton
  | MacOSButton
  | Checkbox
  | WindowsCheckbox
  | MacOSCheckbox.

#[global] Instance cls_eq_dec : EqDecision cls.
Proof. solve_decision. Defined.

(** [C.__name__] *)
Definition cls_name (c : cls) : string :=
  match c with
  | ABC => "ABC"
  | GUIToolkitFactory => "GUIToolkitFactory"
  | WindowsGUIToolkitFactory => "WindowsGUIToolkitFactory"
  | MacOSGUIToolkitFactory => "MacOSGUIToolkitFactory"
  | Button => "Button"
  | WindowsButton => "WindowsButton"
  | MacOSButton => "MacOSButton"
  | Checkbox => "Checkbox"
  | WindowsCheckbox => "WindowsCheckbox"
  | MacOSCheckbox => "MacOSCheckbox"
  end.

(** The base named in each [class] statement. *)
Definition bases (c : cls) : list cls :=
  match c with
  | ABC => []
  | GUIToolkitFactory => [ABC]
  | WindowsGUIToolkitFactory => [GUIToolkitFactory]
  | MacOSGUIToolkitFactory => [GUIToolkitFactory]
  | Button => [ABC]
  | WindowsButton => [Button]
  | MacOSButton => [Button]
  | Checkbox => [ABC]
  | WindowsCheckbox => [Checkbox]
  | MacOSCheckbox => [Checkbox]
  end.

(** [C.__mro__], without the root [object] (which defines none of the
    methods used here).  Inheritance is single throughout, so the order is
    the chain of bases; [mro_bases] below checks it against [bases]. *)
Definition mro (c : cls) : list cls :=
  match c with
  | ABC => [ABC]
  | GUIToolkitFactory => [GUIToolkitFactory; ABC]
  | WindowsGUIToolkitFactory => [WindowsGUIToolkitFactory; GUIToolkitFactory; ABC]
  | MacOSGUIToolkitFactory => [MacOSGUIToolkitFactory; GUIToolkitFactory; ABC]
  | Button => [Button; ABC]
  | WindowsButton => [WindowsButton; Button; ABC]
  | MacOSButton => [MacOSButton; Button; ABC]
  | Checkbox => [Checkbox; ABC]
  | WindowsCheckbox => [WindowsCheckbox; Checkbox; ABC]
  | MacOSCheckbox => [MacOSCheckbox; Checkbox; ABC]
  end.

(** [issubclass(c, C)] *)
Definition issubclass (c C : cls) : bool := bool_decide (C ∈ mro c).

(** An object is a cell of the heap; a reference is its index. *)
Definition loc := nat.

Inductive value :=
  | VNone
  | VStr (s : string)
  | VRef (l : loc).

(** ** The interpreter state *)

(** None of the classes defines [__init__] or assigns an attribute, so an
    object carries its class and nothing else.  [object_repr l] is the text
    of the default [repr] of the object at [l]; it shows a memory address
    and is left uninterpreted. *)
Record world := World {
  heap : list cls;
  stdout : string;
  object_repr : loc -> string
}.

Inductive exn :=
  | TypeError_abstract (c : cls) (missing : list string)
      (* Can't instantiate abstract class c with abstract methods ... *)
  | TypeError_arguments (f : string) (given : nat)
      (* f() takes ... positional arguments but [given] were given *)
  | TypeError_missing (f : string) (params : list string)
      (* f() missing ... required positional arguments: [params] *)
  | AttributeError (type_name attr : string)
      (* 'type_name' object has no attribute 'attr' *)
  | RecursionError
      (* maximum recursion depth exceeded *)
  | InvalidReference (l : loc).
      (* a reference outside the heap: no Python program can build one *)

Inductive outcome (A : Type) :=
  | Ok (a : A)
  | Raise (e : exn).
Arguments Ok {A} a.
Arguments Raise {A} e.

(** A computation runs in a world and ends with a value or an exception;
    what it wrote before an exception stays written. *)
Definition M (A : Type) : Type := world -> outcome A * world.

Definition ret {A} (a : A) : M A := fun w => (Ok a, w).

Definition raise {A} (e : exn) : M A := fun w => (Raise e, w).

Definition bind {A B} (m : M A) (k : A -> M B) : M B :=
  fun w =>
    match m w with
    | (Ok a, w') => k a w'
    | (Raise e, w') => (Raise e, w')
    end.

Notation "x <- m ;; k" := (bind m (fun x => k))
  (at level 100, m at next level, right associativity).
Notation "m ;;; k" := (bind m (fun _ => k))
  (at level 100, right associativity).

(** The line terminator. *)
Definition newline : string := String "010"%char EmptyString.

(** Writing to the standard output. *)
Definition write (text : string) (w : world) : world :=
  {| heap := heap w;
     stdout := stdout w +:+ text;
     object_repr := object_repr w |}.

(** [print(s)] for a string [s]: the text, then a line terminator. *)
Definition print (s : string) : M value :=
  fun w => (Ok VNone, write (s +:+ newline) w).

(** [f"{v}"]: a string stands for itself, [None] reads "None", an object
    without [__format__], [__str__] or [__repr__] of its own gets the default
    [repr]. *)
Definition format (v : value) : M string :=
  fun w =>
    match v with
    | VStr s => (Ok s, w)
    | VNone => (Ok "None", w)
    | VRef l =>
        match heap w !! l with
        | Some _ => (Ok (object_repr w l), w)
        | None => (Raise (InvalidReference l), w)
        end
    end.

(** What a method body needs from the module's globals and the run time:
    calling a method on a value, and calling a class.  Names are resolved
    when the body runs, so the bodies take them as a parameter. *)
Record env := Env {
  invoke : value -> string -> list value -> M value;
  new : cls -> M value
}.

(** A function object: its body, and the mark [@abstractmethod] leaves. *)
Record function := Function {
  isabstractmethod : bool;
  code : env -> list value -> M value
}.

(** Binding of the positional arguments of [def f(self)] and
    [def f(self, x)]: too few name the parameters left without a value, too
    many give the count received. *)
Definition def1 (f : string) (body : value -> M value) (args : list value) : M value :=
  match args with
  | [self] => body self
  | [] => raise (TypeError_missing f ["self"])
  | _ => raise (TypeError_arguments f (length args))
  end.

Definition def2 (f x : string) (body : value -> value -> M value)
    (args : list value) : M value :=
  match args with
  | [self; a] => body self a
  | [] => raise (TypeError_missing f ["self"; x])
  | [self] => raise (TypeError_missing f [x])
  | _ => raise (TypeError_arguments f (length args))
  end.

(** ** The classes of the module *)

(** Each class is a module holding its methods under the names of the
    source.  A body whose source is [pass] returns [None]. *)

Module GUIToolkitFactory.
Definition create_button (rt : env) : list value -> M value :=
    def1 "create_button" (fun self => ret VNone).

Definition create_checkbox (rt : env) : list value -> M value :=
    def1 "create_checkbox" (fun self => ret VNone).
End GUIToolkitFactory.

Module WindowsGUIToolkitFactory.
Definition create_button (rt : env) : list value -> M value :=
    def1 "create_button" (fun self => new rt WindowsButton).

Definition create_checkbox (rt : env) : list value -> M value :=
    def1 "create_checkbox" (fun self => new rt WindowsCheckbox).
End WindowsGUIToolkitFactory.

Module MacOSGUIToolkitFactory.
Definition create_button (rt : env) : list value -> M value :=
    def1 "create_button" (fun self => new rt MacOSButton).

Definition create_checkbox (rt : env) : list value -> M value :=
    def1 "create_checkbox" (fun self => new rt MacOSCheckbox).
End MacOSGUIToolkitFactory.

Module Button.
Definition click (rt : env) : list value -> M value :=
    def1 "click" (fun self => ret VNone).
End Button.

Module WindowsButton.
Definition click (rt : env) : list value -> M value :=
    def1 "click" (fun self => ret (VStr "You have clicked a Windows button.")).
End WindowsButton.

Module MacOSButton.
Definition click (rt : env) : list value -> M value :=
    def1 "click" (fun self => ret (VStr "You have clicked a MacOS button.")).
End MacOSButton.

Module Checkbox.
Definition check (rt : env) : list value -> M value :=
    def1 "check" (fun self => ret VNone).

Definition toggle_with_button (rt : env) : list value -> M value :=
    def2 "toggle_with_button" "button" (fun self button => ret VNone).
End Checkbox.

Module WindowsCheckbox.
Definition check (rt : env) : list value -> M value :=
    def1 "check" (fun self => ret (VStr "Windows checkbox is checked.")).

Definition toggle_with_button (rt : env) : list value -> M value :=
    def2 "toggle_with_button" "button" (fun self button =>
      result <- invoke rt button "click" [] ;;
      text <- format result ;;
      ret (VStr ("Windows checkbox toggled with (" +:+ text +:+ ")"))).
End WindowsCheckbox.

Module MacOSCheckbox.
Definition check (rt : env) : list value -> M value :=
    def1 "check" (fun self => ret (VStr "MacOS checkbox is checked.")).

Definition toggle_with_button (rt : env) : list value -> M value :=
    def2 "toggle_with_button" "button" (fun self button =>
      result <- invoke rt button "click" [] ;;
      text <- format result ;;
      ret (VStr ("MacOS checkbox toggled with (" +:+ text +:+ ")"))).
End MacOSCheckbox.

(** The namespace each [class] statement builds, in the order of the
    source; [true] marks [@abstractmethod]. *)
Definition namespace (c : cls) : list (string * function) :=
  match c with
  | ABC => []
  | GUIToolkitFactory =>
      [("create_button", Function true GUIToolkitFactory.create_button);
       ("create_checkbox", Function true GUIToolkitFactory.create_checkbox)]
  | WindowsGUIToolkitFactory =>
      [("create_button", Function false WindowsGUIToolkitFactory.create_button);
       ("create_checkbox", Function false WindowsGUIToolkitFactory.create_checkbox)]
  | MacOSGUIToolkitFactory =>
      [("create_button", Function false MacOSGUIToolkitFactory.create_button);
       ("create_checkbox", Function false MacOSGUIToolkitFactory.create_checkbox)]
  | Button =>
      [("click", Function true Button.click)]
  | WindowsButton =>
      [("click", Function false WindowsButton.click)]
  | MacOSButton =>
      [("click", Function false MacOSButton.click)]
  | Checkbox =>
      [("check", Function true Checkbox.check);
       ("toggle_with_button", Function true Checkbox.toggle_with_button)]
  | WindowsCheckbox =>
      [("check", Function false WindowsCheckbox.check);
       ("toggle_with_button", Function false WindowsCheckbox.toggle_with_button)]
  | MacOSCheckbox =>
      [("check", Function false MacOSCheckbox.check);
       ("toggle_with_button", Function false MacOSCheckbox.toggle_with_button)]
  end.

(** ** Attribute lookup, abstract methods, instantiation, calls *)

Fixpoint assoc {A} (name : string) (ns : list (string * A)) : option A :=
  match ns with
  | [] => None
  | (n, a) :: rest => if String.eqb n name then Some a else assoc name rest
  end.

(** The first class of the chain that defines [name] wins. *)
Fixpoint lookup_along (chain : list cls) (name : string) : option function :=
  match chain with
  | [] => None
  | c :: rest =>
      match assoc name (namespace c) with
      | Some f => Some f
      | None => lookup_along rest name
      end
  end.

Definition lookup_attr (c : cls) (name : string) : option function :=
  lookup_along (mro c) name.

(** [ABCMeta.__new__] computes [__abstractmethods__]: the names the class
    itself marks abstract, and those abstract in its base that still resolve
    to an abstract function in the class. *)
Definition own_abstracts (c : cls) : list string :=
  (filter (fun p => isabstractmethod p.2 = true) (namespace c)).*1.

Definition still_abstract (c : cls) (name : string) : bool :=
  match lookup_attr c name with
  | Some f => isabstractmethod f
  | None => false
  end.

Fixpoint abstracts_along (chain : list cls) : list string :=
  match chain with
  | [] => []
  | c :: rest =>
      own_abstracts c ++
      filter (fun n => (n ∉ own_abstracts c) ∧ (still_abstract c n = true))
             (abstracts_along rest)
  end.

Definition abstractmethods (c : cls) : list string := abstracts_along (mro c).

(** [c()]: [object.__new__] refuses a class whose [__abstractmethods__] is
    not empty; otherwise a new object of class [c] is allocated.  No class
    defines [__init__]. *)
Definition allocate (c : cls) (w : world) : world :=
  {| heap := heap w ++ [c];
     stdout := stdout w;
     object_repr := object_repr w |}.

Definition instantiate (c : cls) : M value :=
  fun w =>
    match abstractmethods c with
    | [] => (Ok (VRef (length (heap w))), allocate c w)
    | missing => (Raise (TypeError_abstract c missing), w)
    end.

(** [type(v).__name__] *)
Definition type_name (c : option cls) (v : value) : string :=
  match v, c with
  | VNone, _ => "NoneType"
  | VStr _, _ => "str"
  | VRef _, Some c => cls_name c
  | VRef _, None => "object"
  end.

(** The class of the methods of a value: the class of the object a
    reference points to.  Strings and [None] have none of the attributes
    this module uses. *)
Definition class_of (w : world) (v : value) : outcome (option cls) :=
  match v with
  | VNone | VStr _ => Ok None
  | VRef l =>
      match heap w !! l with
      | Some c => Ok (Some c)
      | None => Raise (InvalidReference l)
      end
  end.

Definition resolve (c : option cls) (name : string) : option function :=
  match c with
  | Some c => lookup_attr c name
  | None => None
  end.

(** The method call [recv.name(args)] with [depth] frames left: the attribute is looked up
    on the class of [recv], then the function runs with [recv] bound to its
    first parameter.  The frame is claimed before the arguments are bound;
    Python binds them first, which shows only when no frame is left and the
    arguments do not fit. *)
Fixpoint call (depth : nat) (recv : value) (name : string) (args : list value)
  : M value :=
  fun w =>
    match class_of w recv with
    | Raise e => (Raise e, w)
    | Ok c =>
        match resolve c name with
        | None => (Raise (AttributeError (type_name c recv) name), w)
        | Some f =>
            match depth with
            | 0 => (Raise RecursionError, w)
            | S d => code f (Env (call d) instantiate) (recv :: args) w
            end
        end
    end.

(** The globals a body sees when [depth] frames are left. *)
Definition runtime (depth : nat) : env := Env (call depth) instantiate.

(** ** The client and the script *)

Definition client_code (rt : env) (factory : value) : M value :=
  button <- invoke rt factory "create_button" [] ;;
  checkbox <- invoke rt factory "create_checkbox" [] ;;
  checked <- invoke rt checkbox "check" [] ;;
  line1 <- format checked ;;
  print line1 ;;;
  toggled <- invoke rt checkbox "toggle_with_button" [button] ;;
  line2 <- format toggled ;;
  print line2 ;;;
  ret VNone.

(** The body of [if __name__ == "__main__":].  [client_code] runs in the
    environment of the script body: the embedding charges frames to method
    calls only, so it counts one frame less for the script than Python, which
    also charges the call of [client_code]. *)
Definition main (rt : env) : M value :=
  print "Client: Testing client code with the Windows GUI toolkit:" ;;;
  factory <- new rt WindowsGUIToolkitFactory ;;
  client_code rt factory ;;;
  print newline ;;;
  print "Client: Testing the same client code with the MacOS GUI toolkit:" ;;;
  factory <- new rt MacOSGUIToolkitFactory ;;
  client_code rt factory.

(** Python's default recursion limit. *)
Definition recursion_limit : nat := 1000.

(** The world a fresh interpreter starts the script in. *)
Definition initial_world (repr : loc -> string) : world :=
  {| heap := []; stdout := ""; object_repr := repr |}.

(** Running the file as a script. *)
Definition run_script (repr : loc -> string) : outcome value * world :=
  main (runtime recursion_limit) (initial_world repr).

(** ** Vocabulary of the specification *)

(** The two platform families.  The source has no such tag: a family is
    the choice of concrete classes. *)
Inductive variant := Windows | MacOS.

#[global] Instance variant_eq_dec : EqDecision variant.
Proof. solve_decision. Defined.

Definition variant_name (V : variant) : string :=
  match V with
  | Windows => "Windows"
  | MacOS => "MacOS"
  end.

Definition factory_of (V : variant) : cls :=
  match V with
  | Windows => WindowsGUIToolkitFactory
  | MacOS => MacOSGUIToolkitFactory
  end.

Definition button_of (V : variant) : cls :=
  match V with
  | Windows => WindowsButton
  | MacOS => MacOSButton
  end.

Definition checkbox_of (V : variant) : cls :=
  match V with
  | Windows => WindowsCheckbox
  | MacOS => MacOSCheckbox
  end.

(** The family a concrete class belongs to. *)
Definition family (c : cls) : option variant :=
  match c with
  | WindowsGUIToolkitFactory | WindowsButton | WindowsCheckbox => Some Windows
  | MacOSGUIToolkitFactory | MacOSButton | MacOSCheckbox => Some MacOS
  | ABC | GUIToolkitFactory | Button | Checkbox => None
  end.

(** [isinstance(v, C)] in world [w]. *)
Definition instance_of (w : world) (v : value) (C : cls) : Prop :=
  exists l c, v = VRef l /\ heap w !! l = Some c /\ issubclass c C = true.

(** Every object of the heap was made by calling its class, so its class
    has no abstract method left. *)
Definition wf_world (w : world) : Prop :=
  Forall (fun c => abstractmethods c = []) (heap w).

(** [sub] occurs in [s]. *)
Definition contains (sub s : string) : Prop :=
  exists pre post, s = pre +:+ sub +:+ post.

(** Each line followed by the line terminator. *)
Fixpoint unlines (ls : list string) : string :=
  match ls with
  | [] => ""
  | l :: rest => l +:+ newline +:+ unlines rest
  end.

(** The lines of a text, as [str.splitlines] cuts them at the line
    terminator; [cur] is the line being read. *)
Fixpoint splitlines_from (cur : string) (s : string) : list string :=
  match s with
  | EmptyString => if String.eqb cur "" then [] else [cur]
  | String a rest =>
      if Ascii.eqb a "010"%char
      then cur :: splitlines_from "" rest
      else splitlines_from (cur +:+ String a EmptyString) rest
  end.

Definition splitlines (s : string) : list string := splitlines_from "" s.

(** What a world gained on the standard output since an earlier one. *)
Definition printed (w w' : world) (text : string) : Prop :=
  stdout w' = stdout w +:+ text.

(** ** The outputs the specification words *)

Definition click_text (V : variant) : string :=
  "You have clicked a " +:+ variant_name V +:+ " button.".

Definition check_text (V : variant) : string :=
  variant_name V +:+ " checkbox is checked.".

Definition toggle_text (V : variant) (inner : string) : string :=
  variant_name V +:+ " checkbox toggled with (" +:+ inner +:+ ")".

(** The two lines of one demonstration. *)
Definition demo_lines (V : variant) : list string :=
  [check_text V; toggle_text V (click_text V)].

(** The same call made [n] times in a row, results in order. *)
Fixpoint repeatedly (n : nat) (m : M value) : M (list value) :=
  match n with
  | 0 => ret []
  | S k => v <- m ;; vs <- repeatedly k m ;; ret (v :: vs)
  end.

(** The product of a factory seen through one of its operations:
    [f.create().op()]. *)
Definition observe (d : nat) (f : value) (create op : string) : M value :=
  product <- call d f create [] ;; call d product op [].

(** [s] is a string some method call on an object of family [V] returns:
    any method name, any arguments, any world, any number of frames. *)
Inductive product_output (V : variant) (s : string) : Prop :=
  | ProductOutput (d : nat) (w w' : world) (l : loc) (c : cls)
      (name : string) (args : list value) :
      heap w !! l = Some c ->
      family c = Some V ->
      call d (VRef l) name args w = (Ok (VStr s), w') ->
      product_output V s.

(** Every function of a class and its bases, nearest class first. *)
Definition functions_of (c : cls) : list (string * function) :=
  mro c ≫= namespace.

(** The shape of the script's output: a narration line, the two lines of
    the Windows run, [blank] empty lines, a narration line, the two lines of
    the MacOS run. *)
Definition script_shape (blank : nat) (out : string) : Prop :=
  exists narration1 narration2,
    narration1 <> "" /\ narration2 <> "" /\
    splitlines out =
      ([narration1] ++ demo_lines Windows ++ replicate blank ""
       ++ [narration2] ++ demo_lines MacOS)%list.

(** The class a factory of variant [V] instantiates under each of its two
    creation methods. *)
Definition created_class (V : variant) (name : string) : option cls :=
  if String.eqb name "create_button" then Some (button_of V)
  else if String.eqb name "create_checkbox" then Some (checkbox_of V)
  else None.

(** The names a class answers to, its own and the inherited ones. *)
Definition attribute_names (c : cls) : list string :=
  map fst (functions_of c).

(** The values that are not instances of [C]: [None], strings, and objects
    of a class outside [C]'s subclasses.  [c] is the value's class as
    [class_of] gives it. *)
Definition outside (c : option cls) (C : cls) : Prop :=
  forall c', c = Some c' -> issubclass c' C = false.

(** The names of the methods the module defines.  The attributes every
    Python object has from [object] are not among them, and the embedding
    says nothing about those. *)
Definition method_names : list string :=
  ["create_button"; "create_checkbox"; "click"; "check"; "toggle_with_button"].

(** The parameters after [self] in the [def] of each method name of the
    module: [button] for [toggle_with_button], none for the others. *)
Definition parameters (name : string) : list string :=
  if String.eqb name "toggle_with_button" then ["button"] else [].

Definition arity (name : string) : nat := length (parameters name).

(** The [TypeError] Python raises when [given] arguments follow the
    receiver and that is not the method's arity: too few name the parameters
    left without a value, too many give the count received, [self]
    included. *)
Definition binding_error (name : string) (given : nat) : exn :=
  if Nat.ltb given (arity name)
  then TypeError_missing name (drop given (parameters name))
  else TypeError_arguments name (S given).

(** A world used to exercise the statements below: the objects the script
    leaves behind. *)
Definition sample_world : world :=
  {| heap := [WindowsGUIToolkitFactory; WindowsButton; WindowsCheckbox;
              MacOSGUIToolkitFactory; MacOSButton; MacOSCheckbox];
     stdout := "";
     object_repr := fun _ => "" |}.

(** * Properties *)

(** ** The class table *)

(** [mro] is the chain of [bases]. *)
Lemma mro_bases (c : cls) :
  mro c = c :: match bases c with
               | b :: _ => mro b
               | [] => []
               end.
Proof. destruct c; reflexivity. Qed.

(** The abstract classes are the three interfaces, with the methods they
    declare; every other class is concrete. *)
Lemma abstractmethods_table (c : cls) :
  abstractmethods c =
    match c with
    | GUIToolkitFactory => ["create_button"; "create_checkbox"]
    | Button => ["click"]
    | Checkbox => ["check"; "toggle_with_button"]
    | _ => []
    end.
Proof. destruct c; reflexivity. Qed.

Lemma concrete_family (c : cls) :
  abstractmethods c = [] -> c = ABC \/ is_Some (family c).
Proof. destruct c; (discriminate || (right; eexists; reflexivity) || (left; reflexivity)). Qed.



Lemma factory_of_concrete (V : variant) : abstractmethods (factory_of V) = [].
Proof. destruct V; reflexivity. Qed.

(** ** Worlds *)

Lemma wf_world_lookup (w : world) (l : loc) (c : cls) :
  wf_world w -> heap w !! l = Some c -> abstractmethods c = [].
Proof.
  unfold wf_world. rewrite Forall_lookup. intros Hwf Hl. exact (Hwf l c Hl).
Qed.

Lemma wf_world_allocate (w : world) (c : cls) :
  wf_world w -> abstractmethods c = [] -> wf_world (allocate c w).
Proof.
  unfold wf_world, allocate; simpl. intros Hwf Hc.
  apply Forall_app; split; [assumption | repeat constructor; assumption].
Qed.

Lemma wf_world_initial (repr : loc -> string) : wf_world (initial_world repr).
Proof. constructor. Qed.

Lemma lookup_allocate_new (w : world) (c : cls) :
  heap (allocate c w) !! length (heap w) = Some c.
Proof. unfold allocate; simpl. apply list_lookup_middle. reflexivity. Qed.

Lemma lookup_allocate_old (w : world) (c c' : cls) (l : loc) :
  heap w !! l = Some c' -> heap (allocate c w) !! l = Some c'.
Proof. unfold allocate; simpl. intros Hl. apply lookup_app_l_Some. exact Hl. Qed.

(** The instances of a capability in a well-formed world are the objects
    of its two concrete classes. *)
Lemma instance_of_Button (w : world) (v : value) :
  wf_world w -> instance_of w v Button ->
  exists l V, v = VRef l /\ heap w !! l = Some (button_of V).
Proof.
  intros Hwf (l & c & -> & Hl & Hsub).
  pose proof (wf_world_lookup w l c Hwf Hl) as Hc.
  exists l.
  destruct c; try discriminate Hsub; try discriminate Hc;
    [exists Windows | exists MacOS]; split; auto.
Qed.

Lemma instance_of_Checkbox (w : world) (v : value) :
  wf_world w -> instance_of w v Checkbox ->
  exists l V, v = VRef l /\ heap w !! l = Some (checkbox_of V).
Proof.
  intros Hwf (l & c & -> & Hl & Hsub).
  pose proof (wf_world_lookup w l c Hwf Hl) as Hc.
  exists l.
  destruct c; try discriminate Hsub; try discriminate Hc;
    [exists Windows | exists MacOS]; split; auto.
Qed.

Lemma instance_of_GUIToolkitFactory (w : world) (v : value) :
  wf_world w -> instance_of w v GUIToolkitFactory ->
  exists l V, v = VRef l /\ heap w !! l = Some (factory_of V).
Proof.
  intros Hwf (l & c & -> & Hl & Hsub).
  pose proof (wf_world_lookup w l c Hwf Hl) as Hc.
  exists l.
  destruct c; try discriminate Hsub; try discriminate Hc;
    [exists Windows | exists MacOS]; split; auto.
Qed.

(** ** Calls *)

(** A call on an object whose class resolves the name runs the function
    found, with one frame less. *)
Lemma call_resolved (d : nat) (w : world) (l : loc) (c : cls)
    (name : string) (f : function) (args : list value) :
  heap w !! l = Some c ->
  lookup_attr c name = Some f ->
  call (S d) (VRef l) name args w = code f (runtime d) (VRef l :: args) w.
Proof.
  intros Hl Hf. simpl. rewrite Hl. simpl. rewrite Hf. reflexivity.
Qed.

Lemma instantiate_concrete (c : cls) (w : world) :
  abstractmethods c = [] ->
  instantiate c w = (Ok (VRef (length (heap w))), allocate c w).
Proof. intros Hc. unfold instantiate. rewrite Hc. reflexivity. Qed.

(** Calling a class keeps the heap well formed: an abstract class makes no
    object. *)
Lemma instantiate_preserves_wf (c : cls) (w w' : world) (r : outcome value) :
  wf_world w -> instantiate c w = (r, w') -> wf_world w'.
Proof.
  intros Hwf. unfold instantiate.
  destruct (abstractmethods c) as [| m ms] eqn:Hc; intros [= _ <-].
  - apply wf_world_allocate; assumption.
  - exact Hwf.
Qed.

(** ** The methods, one by one *)

Lemma append_cons (a : ascii) (s t : string) :
  String a s +:+ t = String a (s +:+ t).
Proof. reflexivity. Qed.

Lemma append_assoc (s t u : string) : (s +:+ t) +:+ u = s +:+ t +:+ u.
Proof.
  induction s as [| a s IH]; [reflexivity |].
  rewrite !append_cons, IH. reflexivity.
Qed.

Lemma write_write (t u : string) (w : world) :
  write u (write t w) = write (t +:+ u) w.
Proof. unfold write; simpl. rewrite append_assoc. reflexivity. Qed.

Lemma click_on_button (d : nat) (w : world) (l : loc) (V : variant) :
  heap w !! l = Some (button_of V) ->
  call (S d) (VRef l) "click" [] w = (Ok (VStr (click_text V)), w).
Proof.
  intros Hl. destruct V;
    rewrite (call_resolved d w l _ "click" _ [] Hl eq_refl); reflexivity.
Qed.

Lemma check_on_checkbox (d : nat) (w : world) (l : loc) (V : variant) :
  heap w !! l = Some (checkbox_of V) ->
  call (S d) (VRef l) "check" [] w = (Ok (VStr (check_text V)), w).
Proof.
  intros Hl. destruct V;
    rewrite (call_resolved d w l _ "check" _ [] Hl eq_refl); reflexivity.
Qed.

(** The toggle is one [click] on its argument, whatever that is, and a
    wrapping of the formatted result. *)
Lemma toggle_on_checkbox (d : nat) (w : world) (l : loc) (V : variant)
    (button : value) :
  heap w !! l = Some (checkbox_of V) ->
  call (S d) (VRef l) "toggle_with_button" [button] w =
    (result <- call d button "click" [] ;;
     text <- format result ;;
     ret (VStr (toggle_text V text))) w.
Proof.
  intros Hl. destruct V;
    rewrite (call_resolved d w l _ "toggle_with_button" _ [button] Hl eq_refl);
    reflexivity.
Qed.

Lemma toggle_with_a_button (d : nat) (w : world) (l b : loc) (V B : variant) :
  heap w !! l = Some (checkbox_of V) ->
  heap w !! b = Some (button_of B) ->
  call (S (S d)) (VRef l) "toggle_with_button" [VRef b] w =
    (Ok (VStr (toggle_text V (click_text B))), w).
Proof.
  intros Hl Hb. rewrite (toggle_on_checkbox _ _ _ _ _ Hl).
  unfold bind. rewrite (click_on_button _ _ _ _ Hb). reflexivity.
Qed.

Lemma create_button_on_factory (d : nat) (w : world) (f : loc) (V : variant) :
  heap w !! f = Some (factory_of V) ->
  call (S d) (VRef f) "create_button" [] w =
    (Ok (VRef (length (heap w))), allocate (button_of V) w).
Proof.
  intros Hf. destruct V;
    rewrite (call_resolved d w f _ "create_button" _ [] Hf eq_refl); reflexivity.
Qed.

Lemma create_checkbox_on_factory (d : nat) (w : world) (f : loc) (V : variant) :
  heap w !! f = Some (factory_of V) ->
  call (S d) (VRef f) "create_checkbox" [] w =
    (Ok (VRef (length (heap w))), allocate (checkbox_of V) w).
Proof.
  intros Hf. destruct V;
    rewrite (call_resolved d w f _ "create_checkbox" _ [] Hf eq_refl); reflexivity.
Qed.

(** One run of the client: two objects more on the heap, two lines more on
    the standard output. *)
Lemma client_code_run (d : nat) (w : world) (f : loc) (V : variant) :
  heap w !! f = Some (factory_of V) ->
  client_code (runtime (S (S d))) (VRef f) w =
    (Ok VNone,
     write (unlines (demo_lines V))
       (allocate (checkbox_of V) (allocate (button_of V) w))).
Proof.
  intros Hf. unfold client_code, bind, runtime. cbn [invoke].
  rewrite (create_button_on_factory _ _ _ _ Hf).
  rewrite (create_checkbox_on_factory _ _ _ V (lookup_allocate_old _ _ _ _ Hf)).
  set (w1 := allocate (button_of V) w).
  set (w2 := allocate (checkbox_of V) w1).
  assert (Hc : heap w2 !! length (heap w1) = Some (checkbox_of V))
    by apply lookup_allocate_new.
  assert (Hb : heap w2 !! length (heap w) = Some (button_of V))
    by (apply lookup_allocate_old, lookup_allocate_new).
  rewrite (check_on_checkbox _ _ _ _ Hc).
  unfold format at 1, print at 1.
  rewrite (toggle_with_a_button d (write (check_text V +:+ newline) w2) _ _ V V Hc Hb).
  unfold format, print, ret. rewrite write_write.
  destruct V; reflexivity.
Qed.

(** The script from a fresh interpreter, in full. *)
Lemma run_script_result (repr : loc -> string) :
  run_script repr =
    (Ok VNone,
     write
       (unlines
          (["Client: Testing client code with the Windows GUI toolkit:"]
           ++ demo_lines Windows ++ [""; ""]
           ++ ["Client: Testing the same client code with the MacOS GUI toolkit:"]
           ++ demo_lines MacOS))
       {| heap := [WindowsGUIToolkitFactory; WindowsButton; WindowsCheckbox;
                   MacOSGUIToolkitFactory; MacOSButton; MacOSCheckbox];
          stdout := "";
          object_repr := repr |}).
Proof. vm_compute. reflexivity. Qed.

(** ** The properties of the specification *)

(** C1. For each variant V, the client routine run with V's factory prints
    exactly two lines: "V checkbox is checked." and then
    "V checkbox toggled with (You have clicked a V button.)"; spelled out
    for Windows and for MacOS.  It needs two frames for its nested calls. *)
Theorem client_code_prints_two_lines (V : variant) (d : nat) (w : world) (f : loc) :
  heap w !! f = Some (factory_of V) ->
  exists w' text,
    client_code (runtime (S (S d))) (VRef f) w = (Ok VNone, w') /\
    printed w w' text /\
    splitlines text =
      [variant_name V +:+ " checkbox is checked.";
       variant_name V +:+ " checkbox toggled with (You have clicked a "
         +:+ variant_name V +:+ " button.)"] /\
    text = unlines (splitlines text) /\
    splitlines text =
      match V with
      | Windows =>
          ["Windows checkbox is checked.";
           "Windows checkbox toggled with (You have clicked a Windows button.)"]
      | MacOS =>
          ["MacOS checkbox is checked.";
           "MacOS checkbox toggled with (You have clicked a MacOS button.)"]
      end.
Proof.
  intros Hf. eexists _, (unlines (demo_lines V)).
  split; [apply (client_code_run d w f V Hf) |].
  split; [reflexivity |].
  destruct V; repeat split; reflexivity.
Qed.

Lemma client_code_prints_two_lines_witness :
  exists w' text,
    client_code (runtime 2) (VRef 3) sample_world = (Ok VNone, w') /\
    printed sample_world w' text /\
    splitlines text =
      ["MacOS checkbox is checked.";
       "MacOS checkbox toggled with (You have clicked a MacOS button.)"].
Proof.
  destruct (client_code_prints_two_lines MacOS 0 sample_world 3 eq_refl)
    as (w' & text & Hrun & Hprinted & _ & _ & Hlines).
  exists w', text. repeat split; assumption.
Defined.

(** C5. For each variant V, the string [V.create_button().click()] returns
    contains V's name and the word "button". *)
Theorem created_button_click_names_variant (V : variant) (d : nat) (w : world)
    (f : loc) :
  heap w !! f = Some (factory_of V) ->
  exists b w1 s,
    call (S d) (VRef f) "create_button" [] w = (Ok b, w1) /\
    call (S d) b "click" [] w1 = (Ok (VStr s), w1) /\
    contains (variant_name V) s /\
    contains "button" s.
Proof.
  intros Hf.
  exists (VRef (length (heap w))), (allocate (button_of V) w), (click_text V).
  split; [apply (create_button_on_factory d w f V Hf) |].
  split; [apply click_on_button, lookup_allocate_new |].
  split.
  - exists "You have clicked a ", " button.". reflexivity.
  - exists ("You have clicked a " +:+ variant_name V +:+ " "), ".".
    destruct V; reflexivity.
Qed.

Lemma created_button_click_names_variant_witness :
  exists b w1 s,
    call 1 (VRef 0) "create_button" [] sample_world = (Ok b, w1) /\
    call 1 b "click" [] w1 = (Ok (VStr s), w1) /\
    contains "Windows" s /\
    contains "button" s.
Proof. exact (created_button_click_names_variant Windows 0 sample_world 0 eq_refl). Defined.

(** C6. For each variant V, the string [V.create_checkbox().check()]
    returns contains V's name and the word "checked". *)
Theorem created_checkbox_check_names_variant (V : variant) (d : nat) (w : world)
    (f : loc) :
  heap w !! f = Some (factory_of V) ->
  exists c w1 s,
    call (S d) (VRef f) "create_checkbox" [] w = (Ok c, w1) /\
    call (S d) c "check" [] w1 = (Ok (VStr s), w1) /\
    contains (variant_name V) s /\
    contains "checked" s.
Proof.
  intros Hf.
  exists (VRef (length (heap w))), (allocate (checkbox_of V) w), (check_text V).
  split; [apply (create_checkbox_on_factory d w f V Hf) |].
  split; [apply check_on_checkbox, lookup_allocate_new |].
  split.
  - exists "", " checkbox is checked.". reflexivity.
  - exists (variant_name V +:+ " checkbox is "), ".".
    destruct V; reflexivity.
Qed.

Lemma created_checkbox_check_names_variant_witness :
  exists c w1 s,
    call 1 (VRef 3) "create_checkbox" [] sample_world = (Ok c, w1) /\
    call 1 c "check" [] w1 = (Ok (VStr s), w1) /\
    contains "MacOS" s /\
    contains "checked" s.
Proof. exact (created_checkbox_check_names_variant MacOS 0 sample_world 3 eq_refl). Defined.

(** C9. Calling one of the three abstract capabilities ([Button],
    [Checkbox], [GUIToolkitFactory]) is rejected at construction: a
    [TypeError] naming the class and its abstract methods is raised, and no
    object is made. *)
Theorem abstract_capability_not_instantiable (c : cls) (w : world) :
  c ∈ [Button; Checkbox; GUIToolkitFactory] ->
  exists missing,
    missing <> [] /\
    missing = own_abstracts c /\
    instantiate c w = (Raise (TypeError_abstract c missing), w) /\
    forall d, new (runtime d) c w = (Raise (TypeError_abstract c missing), w).
Proof.
  intros Hc. exists (abstractmethods c).
  apply list_elem_of_In in Hc. simpl in Hc.
  destruct Hc as [<- | [<- | [<- | []]]]; repeat split; discriminate.
Qed.

Lemma abstract_capability_not_instantiable_witness :
  exists missing,
    missing <> [] /\
    missing = own_abstracts Checkbox /\
    instantiate Checkbox sample_world =
      (Raise (TypeError_abstract Checkbox missing), sample_world) /\
    forall d, new (runtime d) Checkbox sample_world =
      (Raise (TypeError_abstract Checkbox missing), sample_world).
Proof.
  apply (abstract_capability_not_instantiable Checkbox sample_world).
  apply list_elem_of_In. simpl. right. left. reflexivity.
Defined.

Lemma wf_sample_world : wf_world sample_world.
Proof. repeat constructor. Qed.

(** C10. For every button [b], [WindowsCheckbox().toggle_with_button(b)] is
    exactly "Windows checkbox toggled with (" + [b.click()] + ")", and
    likewise with "MacOS" for [MacOSCheckbox]; the function calls [click] on
    its argument once, whatever the environment makes of that call, and puts
    the result between the parentheses as it is. *)
Theorem toggle_with_button_exact_format (V : variant) (d : nat) (w : world)
    (l : loc) (b : value) :
  wf_world w ->
  heap w !! l = Some (checkbox_of V) ->
  instance_of w b Button ->
  exists s f,
    call (S d) b "click" [] w = (Ok (VStr s), w) /\
    call (S (S d)) (VRef l) "toggle_with_button" [b] w =
      (Ok (VStr (match V with
                 | Windows => "Windows checkbox toggled with ("
                 | MacOS => "MacOS checkbox toggled with ("
                 end +:+ s +:+ ")")), w) /\
    lookup_attr (checkbox_of V) "toggle_with_button" = Some f /\
    forall (rt : env) (self button : value),
      code f rt [self; button] =
        (result <- invoke rt button "click" [] ;;
         text <- format result ;;
         ret (VStr (match V with
                    | Windows => "Windows checkbox toggled with ("
                    | MacOS => "MacOS checkbox toggled with ("
                    end +:+ text +:+ ")"))).
Proof.
  intros Hwf Hl Hb.
  destruct (instance_of_Button w b Hwf Hb) as (lb & B & -> & Hlb).
  exists (click_text B).
  destruct V; eexists; (split; [apply (click_on_button d w lb B Hlb) |]);
    (split; [apply (toggle_with_a_button d w l lb _ B Hl Hlb) |]);
    (split; [reflexivity |]); reflexivity.
Qed.

Lemma toggle_with_button_exact_format_witness :
  exists s f,
    call 1 (VRef 4) "click" [] sample_world = (Ok (VStr s), sample_world) /\
    call 2 (VRef 2) "toggle_with_button" [VRef 4] sample_world =
      (Ok (VStr ("Windows checkbox toggled with (" +:+ s +:+ ")")), sample_world) /\
    lookup_attr WindowsCheckbox "toggle_with_button" = Some f /\
    forall (rt : env) (self button : value),
      code f rt [self; button] =
        (result <- invoke rt button "click" [] ;;
         text <- format result ;;
         ret (VStr ("Windows checkbox toggled with (" +:+ text +:+ ")"))).
Proof.
  apply (toggle_with_button_exact_format Windows 0 sample_world 2 (VRef 4)).
  - repeat constructor.
  - reflexivity.
  - exists 4, MacOSButton. repeat split; reflexivity.
Defined.

(** C3. For every checkbox variant V and every button [b], of V's family or
    not, [V.create_checkbox().toggle_with_button(b)] succeeds, and the string
    it returns contains V's name and the very string [b.click()] returns.
    This holds for the buttons of the module, and the function the created
    checkbox runs does the same with any button at all: in every
    environment, whatever string the [click] of its argument returns there,
    the toggle returns a string that contains V's name and that string, in
    the world the [click] left. *)
Theorem toggle_with_button_composes (V : variant) (d : nat) (w : world)
    (f : loc) (b : value) :
  wf_world w ->
  heap w !! f = Some (factory_of V) ->
  instance_of w b Button ->
  exists c w1 s r,
    call (S d) (VRef f) "create_checkbox" [] w = (Ok c, w1) /\
    call (S d) b "click" [] w1 = (Ok (VStr s), w1) /\
    call (S (S d)) c "toggle_with_button" [b] w1 = (Ok (VStr r), w1) /\
    contains (variant_name V) r /\
    contains s r /\
    exists lc g,
      c = VRef lc /\
      heap w1 !! lc = Some (checkbox_of V) /\
      lookup_attr (checkbox_of V) "toggle_with_button" = Some g /\
      forall (rt : env) (self button : value) (w0 w0' : world) (s0 : string),
        invoke rt button "click" [] w0 = (Ok (VStr s0), w0') ->
        exists r0,
          code g rt [self; button] w0 = (Ok (VStr r0), w0') /\
          contains (variant_name V) r0 /\
          contains s0 r0.
Proof.
  intros Hwf Hf Hb.
  destruct (instance_of_Button w b Hwf Hb) as (lb & B & -> & Hlb).
  pose proof (lookup_allocate_old w (checkbox_of V) _ lb Hlb) as Hlb1.
  exists (VRef (length (heap w))), (allocate (checkbox_of V) w),
    (click_text B), (toggle_text V (click_text B)).
  split; [apply (create_checkbox_on_factory d w f V Hf) |].
  split; [apply (click_on_button d _ lb B Hlb1) |].
  split; [apply toggle_with_a_button; [apply lookup_allocate_new | exact Hlb1] |].
  split.
  { exists "", (" checkbox toggled with (" +:+ click_text B +:+ ")"). reflexivity. }
  split.
  { exists (variant_name V +:+ " checkbox toggled with ("), ")".
    unfold toggle_text. rewrite append_assoc. reflexivity. }
  exists (length (heap w)).
  destruct V; eexists; (split; [reflexivity |]);
    (split; [apply lookup_allocate_new |]); (split; [reflexivity |]);
    intros rt self button w0 w0' s0 Hclick; cbn [code];
    [exists (toggle_text Windows s0) | exists (toggle_text MacOS s0)];
    (split; [unfold WindowsCheckbox.toggle_with_button,
               MacOSCheckbox.toggle_with_button, def2, bind;
             rewrite Hclick; reflexivity |]);
    (split; [eexists "", _; reflexivity |]).
  - exists "Windows checkbox toggled with (", ")". reflexivity.
  - exists "MacOS checkbox toggled with (", ")". reflexivity.
Qed.

(** A Windows checkbox toggled with a MacOS button embeds the MacOS click
    text. *)
Lemma toggle_with_button_composes_witness :
  exists c w1 s r,
    call 1 (VRef 0) "create_checkbox" [] sample_world = (Ok c, w1) /\
    call 1 (VRef 4) "click" [] w1 = (Ok (VStr s), w1) /\
    call 2 c "toggle_with_button" [VRef 4] w1 = (Ok (VStr r), w1) /\
    contains "Windows" r /\
    contains s r /\
    exists lc g,
      c = VRef lc /\
      heap w1 !! lc = Some WindowsCheckbox /\
      lookup_attr WindowsCheckbox "toggle_with_button" = Some g /\
      forall (rt : env) (self button : value) (w0 w0' : world) (s0 : string),
        invoke rt button "click" [] w0 = (Ok (VStr s0), w0') ->
        exists r0,
          code g rt [self; button] w0 = (Ok (VStr r0), w0') /\
          contains "Windows" r0 /\
          contains s0 r0.
Proof.
  apply (toggle_with_button_composes Windows 0 sample_world 0 (VRef 4)).
  - repeat constructor.
  - reflexivity.
  - exists 4, MacOSButton. repeat split; reflexivity.
Defined.

(** ** Repetition *)

Lemma repeatedly_unchanged (n : nat) (m : M value) (v : value) (w : world) :
  m w = (Ok v, w) -> repeatedly n m w = (Ok (replicate n v), w).
Proof.
  intros Hm. induction n as [| n IH]; [reflexivity |].
  simpl. unfold bind. rewrite Hm, IH. reflexivity.
Qed.

Lemma heap_iter_allocate (n : nat) (c : cls) (w : world) :
  heap (Nat.iter n (allocate c) w) = (heap w ++ replicate n c)%list /\
  stdout (Nat.iter n (allocate c) w) = stdout w /\
  object_repr (Nat.iter n (allocate c) w) = object_repr w.
Proof.
  induction n as [| n (IHh & IHs & IHr)]; simpl.
  - rewrite app_nil_r. auto.
  - rewrite IHh, IHs, IHr, <- app_assoc.
    replace (replicate n c ++ [c])%list with (c :: replicate n c); [auto |].
    clear. induction n as [| n IH]; simpl; [reflexivity | rewrite <- IH; reflexivity].
Qed.

Lemma repeatedly_allocating (n : nat) (m : M value) (c : cls) (v : value)
    (P : world -> Prop) :
  (forall w, P w -> m w = (Ok v, allocate c w) /\ P (allocate c w)) ->
  forall w, P w ->
    repeatedly n m w = (Ok (replicate n v), Nat.iter n (allocate c) w).
Proof.
  intros Hm. induction n as [| n IH]; intros w Hw; [reflexivity |].
  destruct (Hm w Hw) as [Hrun Hnext].
  simpl repeatedly. unfold bind. rewrite Hrun, (IH _ Hnext).
  rewrite <- Nat.iter_succ_r. reflexivity.
Qed.

Lemma observe_button (d : nat) (w : world) (f : loc) (V : variant) :
  heap w !! f = Some (factory_of V) ->
  observe (S d) (VRef f) "create_button" "click" w =
    (Ok (VStr (click_text V)), allocate (button_of V) w).
Proof.
  intros Hf. unfold observe, bind.
  rewrite (create_button_on_factory d w f V Hf).
  apply click_on_button, lookup_allocate_new.
Qed.

Lemma observe_checkbox (d : nat) (w : world) (f : loc) (V : variant) :
  heap w !! f = Some (factory_of V) ->
  observe (S d) (VRef f) "create_checkbox" "check" w =
    (Ok (VStr (check_text V)), allocate (checkbox_of V) w).
Proof.
  intros Hf. unfold observe, bind.
  rewrite (create_checkbox_on_factory d w f V Hf).
  apply check_on_checkbox, lookup_allocate_new.
Qed.



(** C7. Repeating an operation on the same receiver, and for
    [toggle_with_button] the same button, returns the same string every
    time, and the calls leave the world as it was: no object and no output
    changes.  [create_button] and [create_checkbox] add the new object to the
    heap and change nothing else; seen through what the product returns, they
    give the same result every time too. *)
Theorem operations_idempotent (d n : nat) (w : world) :
  wf_world w ->
  (forall b, instance_of w b Button ->
     exists s,
       repeatedly n (call (S d) b "click" []) w = (Ok (replicate n (VStr s)), w)) /\
  (forall c, instance_of w c Checkbox ->
     exists s,
       repeatedly n (call (S d) c "check" []) w = (Ok (replicate n (VStr s)), w)) /\
  (forall c b, instance_of w c Checkbox -> instance_of w b Button ->
     exists s,
       repeatedly n (call (S (S d)) c "toggle_with_button" [b]) w =
         (Ok (replicate n (VStr s)), w)) /\
  (forall f, instance_of w f GUIToolkitFactory ->
     exists s p w',
       repeatedly n (observe (S d) f "create_button" "click") w =
         (Ok (replicate n (VStr s)), w') /\
       heap w' = (heap w ++ replicate n p)%list /\
       stdout w' = stdout w /\ object_repr w' = object_repr w) /\
  (forall f, instance_of w f GUIToolkitFactory ->
     exists s p w',
       repeatedly n (observe (S d) f "create_checkbox" "check") w =
         (Ok (replicate n (VStr s)), w') /\
       heap w' = (heap w ++ replicate n p)%list /\
       stdout w' = stdout w /\ object_repr w' = object_repr w).
Proof.
  intros Hwf. repeat split.
  - intros b Hb.
    destruct (instance_of_Button w b Hwf Hb) as (lb & B & -> & Hlb).
    exists (click_text B). apply repeatedly_unchanged, click_on_button, Hlb.
  - intros c Hc.
    destruct (instance_of_Checkbox w c Hwf Hc) as (lc & V & -> & Hlc).
    exists (check_text V). apply repeatedly_unchanged, check_on_checkbox, Hlc.
  - intros c b Hc Hb.
    destruct (instance_of_Checkbox w c Hwf Hc) as (lc & V & -> & Hlc).
    destruct (instance_of_Button w b Hwf Hb) as (lb & B & -> & Hlb).
    exists (toggle_text V (click_text B)).
    apply repeatedly_unchanged, toggle_with_a_button; assumption.
  - intros f Hf.
    destruct (instance_of_GUIToolkitFactory w f Hwf Hf) as (lf & V & -> & Hlf).
    exists (click_text V), (button_of V), (Nat.iter n (allocate (button_of V)) w).
    split; [| apply heap_iter_allocate].
    apply (repeatedly_allocating n _ _ _
             (fun w => heap w !! lf = Some (factory_of V))); [| exact Hlf].
    intros w0 Hw0. split; [apply observe_button, Hw0 |].
    apply lookup_allocate_old, Hw0.
  - intros f Hf.
    destruct (instance_of_GUIToolkitFactory w f Hwf Hf) as (lf & V & -> & Hlf).
    exists (check_text V), (checkbox_of V), (Nat.iter n (allocate (checkbox_of V)) w).
    split; [| apply heap_iter_allocate].
    apply (repeatedly_allocating n _ _ _
             (fun w => heap w !! lf = Some (factory_of V))); [| exact Hlf].
    intros w0 Hw0. split; [apply observe_checkbox, Hw0 |].
    apply lookup_allocate_old, Hw0.
Qed.

Lemma operations_idempotent_witness :
  exists s,
    repeatedly 3 (call 2 (VRef 5) "toggle_with_button" [VRef 1]) sample_world =
      (Ok [VStr s; VStr s; VStr s], sample_world).
Proof.
  destruct (operations_idempotent 0 3 sample_world wf_sample_world)
    as (_ & _ & Htoggle & _).
  apply Htoggle.
  - exists 5, MacOSCheckbox. repeat split; reflexivity.
  - exists 1, WindowsButton. repeat split; reflexivity.
Defined.

(** ** What the products of a family return *)

Lemma assoc_In {A} (name : string) (ns : list (string * A)) (a : A) :
  assoc name ns = Some a -> In (name, a) ns.
Proof.
  induction ns as [| [n b] ns IH]; simpl; [discriminate |].
  destruct (String.eqb_spec n name) as [-> | _].
  - intros [= ->]. left; reflexivity.
  - intros H. right. exact (IH H).
Qed.

Lemma lookup_along_In (chain : list cls) (name : string) (f : function) :
  lookup_along chain name = Some f -> In (name, f) (chain ≫= namespace).
Proof.
  induction chain as [| c chain IH]; simpl; [discriminate |].
  intros H. apply in_or_app.
  destruct (assoc name (namespace c)) as [g |] eqn:Hg.
  - injection H as ->. left. exact (assoc_In _ _ _ Hg).
  - right. exact (IH H).
Qed.

Lemma call_without_frames (recv : value) (name : string) (args : list value)
    (w w' : world) (v : value) :
  call 0 recv name args w <> (Ok v, w').
Proof.
  simpl. destruct (class_of w recv) as [c | e]; [| discriminate].
  destruct (resolve c name); discriminate.
Qed.

Lemma call_inversion (d : nat) (w w' : world) (l : loc) (c : cls)
    (name : string) (args : list value) (v : value) :
  heap w !! l = Some c ->
  call d (VRef l) name args w = (Ok v, w') ->
  exists d' f,
    d = S d' /\ In (name, f) (functions_of c) /\
    code f (runtime d') (VRef l :: args) w = (Ok v, w').
Proof.
  intros Hl Hcall. destruct d as [| d'].
  - destruct (call_without_frames _ _ _ _ _ _ Hcall).
  - simpl in Hcall. rewrite Hl in Hcall. simpl in Hcall.
    destruct (lookup_attr c name) as [f |] eqn:Hf; [| discriminate].
    exists d', f. repeat split; [| exact Hcall].
    apply lookup_along_In, Hf.
Qed.

(** The strings the products of a family return are the three of the
    source. *)
Lemma product_output_shape (V : variant) (s : string) :
  product_output V s ->
  s = click_text V \/ s = check_text V \/ exists t, s = toggle_text V t.
Proof.
  intros [d w w' l c name args Hl Hfam Hcall].
  destruct (call_inversion _ _ _ _ _ _ _ _ Hl Hcall) as (d' & f & -> & Hin & Hrun).
  clear Hcall Hl.
  destruct c; try discriminate Hfam; injection Hfam as <-;
    simpl in Hin; repeat (destruct Hin as [[= <- <-] | Hin]); try contradiction;
    cbn [code] in Hrun.
  all: try (unfold WindowsGUIToolkitFactory.create_button,
              WindowsGUIToolkitFactory.create_checkbox,
              MacOSGUIToolkitFactory.create_button,
              MacOSGUIToolkitFactory.create_checkbox,
              GUIToolkitFactory.create_button,
              GUIToolkitFactory.create_checkbox,
              Button.click, Checkbox.check, def1 in Hrun;
            destruct args; [| discriminate Hrun];
            cbn [new runtime] in Hrun; unfold instantiate in Hrun;
            simpl in Hrun; discriminate Hrun).
  all: try (unfold Checkbox.toggle_with_button, def2 in Hrun;
            destruct args as [| a [| a' args]]; discriminate Hrun).
  all: try (unfold WindowsButton.click, MacOSButton.click, def1 in Hrun;
            destruct args; [| discriminate Hrun];
            injection Hrun as <- _; left; reflexivity).
  all: try (unfold WindowsCheckbox.check, MacOSCheckbox.check, def1 in Hrun;
            destruct args; [| discriminate Hrun];
            injection Hrun as <- _; right; left; reflexivity).
  all: unfold WindowsCheckbox.toggle_with_button,
         MacOSCheckbox.toggle_with_button, def2, bind in Hrun;
       destruct args as [| a [| a' args]]; try discriminate Hrun;
       destruct (invoke _ _ _ _ _) as [[r | e] w1]; [| discriminate Hrun];
       destruct (format r w1) as [[t | e] w2]; [| discriminate Hrun];
       injection Hrun as <- _; right; right; exists t; reflexivity.
Qed.

Lemma outputs_disjoint (V V' : variant) (s : string) :
  V' <> V -> product_output V s -> ~ product_output V' s.
Proof.
  intros Hne H H'.
  apply product_output_shape in H, H'.
  destruct V, V'; try congruence;
    destruct H as [-> | [-> | [t ->]]];
    destruct H' as [H' | [H' | [t' H']]];
    vm_compute in H'; discriminate H'.
Qed.

(** C2. Family consistency: the button and the checkbox a factory of
    variant V creates are of V's family, and no string a product of V
    returns is a string a product of another variant returns. *)
Theorem factory_family_consistent (V : variant) (d : nat) (w : world) (f : loc) :
  heap w !! f = Some (factory_of V) ->
  (exists b c w1,
     call (S d) (VRef f) "create_button" [] w = (Ok (VRef b), w1) /\
     heap w1 !! b = Some c /\
     issubclass c Button = true /\ family c = Some V) /\
  (exists b c w1,
     call (S d) (VRef f) "create_checkbox" [] w = (Ok (VRef b), w1) /\
     heap w1 !! b = Some c /\
     issubclass c Checkbox = true /\ family c = Some V) /\
  (forall V' s, V' <> V -> product_output V s -> ~ product_output V' s).
Proof.
  intros Hf. split; [| split].
  - exists (length (heap w)), (button_of V), (allocate (button_of V) w).
    split; [apply create_button_on_factory, Hf |].
    split; [apply lookup_allocate_new |].
    destruct V; split; reflexivity.
  - exists (length (heap w)), (checkbox_of V), (allocate (checkbox_of V) w).
    split; [apply create_checkbox_on_factory, Hf |].
    split; [apply lookup_allocate_new |].
    destruct V; split; reflexivity.
  - intros V' s. apply outputs_disjoint.
Qed.

Lemma factory_family_consistent_witness :
  (exists b c w1,
     call 1 (VRef 3) "create_button" [] sample_world = (Ok (VRef b), w1) /\
     heap w1 !! b = Some c /\
     issubclass c Button = true /\ family c = Some MacOS) /\
  ~ product_output Windows "You have clicked a MacOS button.".
Proof.
  destruct (factory_family_consistent MacOS 0 sample_world 3 eq_refl)
    as (Hbutton & _ & Hout).
  split; [exact Hbutton |].
  apply Hout; [discriminate |].
  apply (ProductOutput MacOS _ 1 sample_world sample_world 4 MacOSButton "click" []);
    reflexivity.
Defined.

(** C4, as stated, fails: the output does not have one empty line between
    the two runs. *)
Lemma script_not_one_blank_line :
  ~ script_shape 1 (stdout (run_script (fun _ => "")).2).
Proof.
  intros (n1 & n2 & _ & _ & H).
  rewrite run_script_result in H. vm_compute in H. discriminate H.
Qed.

(** C4, amended. Run as a script from a fresh interpreter, the file runs
    the client routine exactly twice, first with a new Windows factory and
    then with a new MacOS factory; a narration line is printed before each
    run, and the one [print] of a line terminator between the runs leaves two
    empty lines between them. *)
Theorem script_runs_client_twice (repr : loc -> string) :
  exists w1 w2 w3 w4,
    w1 = allocate WindowsGUIToolkitFactory
           (write ("Client: Testing client code with the Windows GUI toolkit:"
                   +:+ newline) (initial_world repr)) /\
    client_code (runtime recursion_limit) (VRef 0) w1 = (Ok VNone, w2) /\
    w3 = allocate MacOSGUIToolkitFactory
           (write ("Client: Testing the same client code with the MacOS GUI toolkit:"
                   +:+ newline)
              (write (newline +:+ newline) w2)) /\
    client_code (runtime recursion_limit) (VRef 3) w3 = (Ok VNone, w4) /\
    run_script repr = (Ok VNone, w4) /\
    heap w4 = [WindowsGUIToolkitFactory; WindowsButton; WindowsCheckbox;
               MacOSGUIToolkitFactory; MacOSButton; MacOSCheckbox] /\
    splitlines (stdout w4) =
      ["Client: Testing client code with the Windows GUI toolkit:";
       "Windows checkbox is checked.";
       "Windows checkbox toggled with (You have clicked a Windows button.)";
       "";
       "";
       "Client: Testing the same client code with the MacOS GUI toolkit:";
       "MacOS checkbox is checked.";
       "MacOS checkbox toggled with (You have clicked a MacOS button.)"] /\
    script_shape 2 (stdout w4).
Proof.
  eexists _, _, _, _.
  split; [reflexivity |].
  split; [change recursion_limit with (S (S 998));
          apply (client_code_run 998 _ 0 Windows); reflexivity |].
  split; [reflexivity |].
  split; [change recursion_limit with (S (S 998));
          apply (client_code_run 998 _ 3 MacOS); reflexivity |].
  split; [rewrite run_script_result; vm_compute; reflexivity |].
  split; [reflexivity |].
  split; [vm_compute; reflexivity |].
  exists "Client: Testing client code with the Windows GUI toolkit:",
    "Client: Testing the same client code with the MacOS GUI toolkit:".
  split; [discriminate |]. split; [discriminate |].
  vm_compute. reflexivity.
Qed.

(** * Further properties of the module *)

(** ** Names a class does not define *)

Lemma assoc_None {A} (name : string) (ns : list (string * A)) :
  ~ In name (map fst ns) -> assoc name ns = None.
Proof.
  induction ns as [| [n a] ns IH]; simpl; [reflexivity |].
  intros Hnot. destruct (String.eqb_spec n name) as [-> | _].
  - destruct Hnot. left; reflexivity.
  - apply IH. intros Hin. apply Hnot. right; exact Hin.
Qed.

Lemma lookup_along_None (chain : list cls) (name : string) :
  ~ In name (map fst (chain ≫= namespace)) -> lookup_along chain name = None.
Proof.
  induction chain as [| c chain IH]; simpl; [reflexivity |].
  rewrite map_app. intros Hnot.
  rewrite assoc_None by (intros Hin; apply Hnot, in_or_app; left; exact Hin).
  apply IH. intros Hin. apply Hnot, in_or_app. right; exact Hin.
Qed.

(** X8. A method call under one of the module's method names that the
    receiver's class neither defines nor inherits ([click] on a checkbox,
    [check] on a factory, ...) raises [AttributeError] with the class and the
    name, whatever the arguments and the frames left, and changes nothing. *)
Theorem call_unknown_attribute (d : nat) (w : world) (l : loc) (c : cls)
    (name : string) (args : list value) :
  heap w !! l = Some c ->
  In name method_names ->
  ~ In name (attribute_names c) ->
  call d (VRef l) name args w = (Raise (AttributeError (cls_name c) name), w).
Proof.
  intros Hl _ Hname.
  assert (Hnone : lookup_attr c name = None) by apply lookup_along_None, Hname.
  destruct d; simpl; rewrite Hl; simpl; rewrite Hnone; reflexivity.
Qed.

Lemma call_unknown_attribute_witness :
  call 5 (VRef 2) "click" [] sample_world =
    (Raise (AttributeError "WindowsCheckbox" "click"), sample_world).
Proof.
  apply (call_unknown_attribute 5 sample_world 2 WindowsCheckbox "click" []).
  - reflexivity.
  - simpl. right. right. left. reflexivity.
  - simpl. intros [H | [H | [H | [H | []]]]]; discriminate H.
Defined.

(** ** Arguments outside a capability *)

Lemma call_unresolved (d : nat) (w : world) (v : value) (c : option cls)
    (name : string) (args : list value) :
  class_of w v = Ok c ->
  resolve c name = None ->
  call d v name args w = (Raise (AttributeError (type_name c v) name), w).
Proof.
  intros Hc Hname. destruct d; simpl; rewrite Hc, Hname; reflexivity.
Qed.

Lemma outside_Button_click (c : option cls) :
  outside c Button -> resolve c "click" = None.
Proof.
  destruct c as [c |]; [| reflexivity].
  intros Hout. specialize (Hout c eq_refl).
  destruct c; (reflexivity || discriminate Hout).
Qed.

Lemma outside_GUIToolkitFactory_create_button (c : option cls) :
  outside c GUIToolkitFactory -> resolve c "create_button" = None.
Proof.
  destruct c as [c |]; [| reflexivity].
  intros Hout. specialize (Hout c eq_refl).
  destruct c; (reflexivity || discriminate Hout).
Qed.

(** X1. [toggle_with_button] does not check its argument: given [None], a
    string or an object that is not a [Button], the [click] it attempts
    raises [AttributeError] for that value's type; no string is returned and
    the world is as before.  One frame is enough to get there. *)
Theorem toggle_with_button_rejects_non_button (V : variant) (d : nat)
    (w : world) (l : loc) (b : value) (c : option cls) :
  heap w !! l = Some (checkbox_of V) ->
  class_of w b = Ok c ->
  outside c Button ->
  call (S d) (VRef l) "toggle_with_button" [b] w =
    (Raise (AttributeError (type_name c b) "click"), w).
Proof.
  intros Hl Hc Hout. rewrite (toggle_on_checkbox _ _ _ _ _ Hl). unfold bind.
  rewrite (call_unresolved d w b c "click" [] Hc (outside_Button_click c Hout)).
  reflexivity.
Qed.

Lemma toggle_with_button_rejects_non_button_witness :
  call 1 (VRef 5) "toggle_with_button" [VRef 0] sample_world =
    (Raise (AttributeError "WindowsGUIToolkitFactory" "click"), sample_world).
Proof.
  apply (toggle_with_button_rejects_non_button MacOS 0 sample_world 5 (VRef 0)
           (Some WindowsGUIToolkitFactory)).
  - reflexivity.
  - reflexivity.
  - intros c' [= <-]. reflexivity.
Defined.

(** X2. [client_code] given something that is not a factory ([None], a string,
    an object of another class) stops at its first statement with
    [AttributeError] for [create_button]: nothing is printed and no object is
    made, with any number of frames. *)
Theorem client_code_rejects_non_factory (d : nat) (w : world) (f : value)
    (c : option cls) :
  class_of w f = Ok c ->
  outside c GUIToolkitFactory ->
  client_code (runtime d) f w =
    (Raise (AttributeError (type_name c f) "create_button"), w).
Proof.
  intros Hc Hout. unfold client_code, bind, runtime. cbn [invoke].
  rewrite (call_unresolved d w f c "create_button" [] Hc
             (outside_GUIToolkitFactory_create_button c Hout)).
  reflexivity.
Qed.

Lemma client_code_rejects_non_factory_witness :
  client_code (runtime 7) (VStr "Windows") sample_world =
    (Raise (AttributeError "str" "create_button"), sample_world).
Proof.
  apply (client_code_rejects_non_factory 7 sample_world (VStr "Windows") None).
  - reflexivity.
  - intros c' H. discriminate H.
Defined.

(** ** What a method call can do to the world *)





(** ** Making objects *)

Lemma lookup_beyond_heap (w : world) : heap w !! length (heap w) = None.
Proof. apply lookup_ge_None_2. reflexivity. Qed.

(** X5. Every class other than the three interfaces can be called: the result
    is a reference that was free, the object behind it has that class, and
    the objects that existed are where they were, with the class they had. *)
Theorem concrete_class_instantiable (c : cls) (w : world) :
  ~ In c [Button; Checkbox; GUIToolkitFactory] ->
  exists l w',
    instantiate c w = (Ok (VRef l), w') /\
    heap w !! l = None /\
    heap w' !! l = Some c /\
    stdout w' = stdout w /\
    forall l' c', heap w !! l' = Some c' -> heap w' !! l' = Some c'.
Proof.
  intros Hc. exists (length (heap w)), (allocate c w).
  split.
  - apply instantiate_concrete.
    destruct c; try reflexivity; destruct Hc; simpl; auto.
  - split; [apply lookup_beyond_heap |].
    split; [apply lookup_allocate_new |].
    split; [reflexivity |].
    intros l' c'. apply lookup_allocate_old.
Qed.

Lemma concrete_class_instantiable_witness :
  exists l w',
    instantiate MacOSButton sample_world = (Ok (VRef l), w') /\
    heap sample_world !! l = None /\
    heap w' !! l = Some MacOSButton /\
    stdout w' = stdout sample_world /\
    forall l' c', heap sample_world !! l' = Some c' -> heap w' !! l' = Some c'.
Proof.
  apply (concrete_class_instantiable MacOSButton sample_world).
  simpl. intros [H | [H | [H | []]]]; discriminate H.
Defined.

Lemma create_on_factory (d : nat) (w : world) (f : loc) (V : variant)
    (name : string) (c : cls) :
  heap w !! f = Some (factory_of V) ->
  created_class V name = Some c ->
  call (S d) (VRef f) name [] w = (Ok (VRef (length (heap w))), allocate c w).
Proof.
  intros Hf. unfold created_class.
  destruct (String.eqb_spec name "create_button") as [-> | _].
  { intros [= <-]. apply create_button_on_factory, Hf. }
  destruct (String.eqb_spec name "create_checkbox") as [-> | _].
  { intros [= <-]. apply create_checkbox_on_factory, Hf. }
  discriminate.
Qed.

(** X6. A factory keeps no product: two creation calls in a row, of the same
    method or not, return two different references, each new when it is
    returned, and afterwards both objects are on the heap with the classes
    of the factory's family. *)
Theorem factory_products_are_fresh (V : variant) (d : nat) (w : world)
    (f : loc) (name1 name2 : string) (c1 c2 : cls) :
  heap w !! f = Some (factory_of V) ->
  created_class V name1 = Some c1 ->
  created_class V name2 = Some c2 ->
  exists l1 l2 w1 w2,
    call (S d) (VRef f) name1 [] w = (Ok (VRef l1), w1) /\
    call (S d) (VRef f) name2 [] w1 = (Ok (VRef l2), w2) /\
    l1 <> l2 /\ l1 <> f /\ l2 <> f /\
    heap w !! l1 = None /\ heap w1 !! l2 = None /\
    heap w2 !! l1 = Some c1 /\ heap w2 !! l2 = Some c2 /\
    family c1 = Some V /\ family c2 = Some V.
Proof.
  intros Hf Hc1 Hc2.
  pose proof (lookup_lt_Some _ _ _ Hf) as Hlt.
  exists (length (heap w)), (length (heap (allocate c1 w))),
    (allocate c1 w), (allocate c2 (allocate c1 w)).
  assert (Hlen : length (heap (allocate c1 w)) = S (length (heap w))).
  { unfold allocate; simpl. rewrite length_app. simpl. lia. }
  split; [apply (create_on_factory d w f V name1 c1 Hf Hc1) |].
  split; [apply (create_on_factory d _ f V name2 c2
                   (lookup_allocate_old _ _ _ _ Hf) Hc2) |].
  split; [lia |]. split; [lia |]. split; [lia |].
  split; [apply lookup_beyond_heap |].
  split; [apply lookup_beyond_heap |].
  split; [apply lookup_allocate_old, lookup_allocate_new |].
  split; [apply lookup_allocate_new |].
  unfold created_class in Hc1, Hc2.
  split.
  - destruct (String.eqb name1 "create_button");
      [| destruct (String.eqb name1 "create_checkbox"); [| discriminate Hc1]];
      injection Hc1 as <-; destruct V; reflexivity.
  - destruct (String.eqb name2 "create_button");
      [| destruct (String.eqb name2 "create_checkbox"); [| discriminate Hc2]];
      injection Hc2 as <-; destruct V; reflexivity.
Qed.

Lemma factory_products_are_fresh_witness :
  exists l1 l2 w1 w2,
    call 1 (VRef 0) "create_button" [] sample_world = (Ok (VRef l1), w1) /\
    call 1 (VRef 0) "create_button" [] w1 = (Ok (VRef l2), w2) /\
    l1 <> l2 /\ l1 <> 0 /\ l2 <> 0 /\
    heap sample_world !! l1 = None /\ heap w1 !! l2 = None /\
    heap w2 !! l1 = Some WindowsButton /\ heap w2 !! l2 = Some WindowsButton /\
    family WindowsButton = Some Windows /\ family WindowsButton = Some Windows.
Proof.
  apply (factory_products_are_fresh Windows 0 sample_world 0
           "create_button" "create_button" WindowsButton WindowsButton);
    reflexivity.
Defined.

(** ** The client and the script in any world *)

(** X3. [client_code] relies on the abstract types only: for every instance of
    [GUIToolkitFactory] of a well-formed world it returns [None], having
    added to the heap one [Button] and one [Checkbox] of one family, in that
    order and nothing else, and having appended the two lines of that family
    to what was on the standard output; the world stays well formed. *)
Theorem client_code_accepts_any_factory (d : nat) (w : world) (f : value) :
  wf_world w ->
  instance_of w f GUIToolkitFactory ->
  exists V b c w',
    client_code (runtime (S (S d))) f w = (Ok VNone, w') /\
    heap w' = (heap w ++ [b; c])%list /\
    issubclass b Button = true /\ issubclass c Checkbox = true /\
    family b = Some V /\ family c = Some V /\
    stdout w' = stdout w +:+ unlines (demo_lines V) /\
    wf_world w'.
Proof.
  intros Hwf Hf.
  destruct (instance_of_GUIToolkitFactory w f Hwf Hf) as (lf & V & -> & Hlf).
  exists V, (button_of V), (checkbox_of V).
  eexists. split; [apply (client_code_run d w lf V Hlf) |].
  split; [simpl; rewrite <- app_assoc; reflexivity |].
  split; [destruct V; reflexivity |].
  split; [destruct V; reflexivity |].
  split; [destruct V; reflexivity |].
  split; [destruct V; reflexivity |].
  split; [reflexivity |].
  unfold wf_world; simpl.
  repeat (apply Forall_app; split); [exact Hwf | ..];
    repeat constructor; destruct V; reflexivity.
Qed.

Lemma client_code_accepts_any_factory_witness :
  exists V b c w',
    client_code (runtime 2) (VRef 0) sample_world = (Ok VNone, w') /\
    heap w' = (heap sample_world ++ [b; c])%list /\
    issubclass b Button = true /\ issubclass c Checkbox = true /\
    family b = Some V /\ family c = Some V /\
    stdout w' = stdout sample_world +:+ unlines (demo_lines V) /\
    wf_world w'.
Proof.
  apply (client_code_accepts_any_factory 0 sample_world (VRef 0) wf_sample_world).
  exists 0, WindowsGUIToolkitFactory. repeat split; reflexivity.
Defined.

(** X7. The body of the script does not depend on the world it starts in:
    with three frames or more (one for [client_code], one for the method it
    calls, one for the [click] inside the toggle) it returns [None], appends
    its eight lines to the standard output and its six objects to the heap,
    the Windows factory and its products before the MacOS ones. *)
Theorem main_in_any_world (d : nat) (w : world) :
  exists w',
    main (runtime (S (S (S d)))) w = (Ok VNone, w') /\
    heap w' =
      (heap w ++ [WindowsGUIToolkitFactory; WindowsButton; WindowsCheckbox;
                  MacOSGUIToolkitFactory; MacOSButton; MacOSCheckbox])%list /\
    stdout w' =
      stdout w +:+
      unlines
        ["Client: Testing client code with the Windows GUI toolkit:";
         "Windows checkbox is checked.";
         "Windows checkbox toggled with (You have clicked a Windows button.)";
         "";
         "";
         "Client: Testing the same client code with the MacOS GUI toolkit:";
         "MacOS checkbox is checked.";
         "MacOS checkbox toggled with (You have clicked a MacOS button.)"] /\
    object_repr w' = object_repr w.
Proof.
  unfold main, bind, print.
  change (new (runtime (S (S (S d))))) with instantiate.
  rewrite (instantiate_concrete WindowsGUIToolkitFactory) by reflexivity.
  rewrite (client_code_run (S d) _ _ Windows (lookup_allocate_new _ _)).
  rewrite (instantiate_concrete MacOSGUIToolkitFactory) by reflexivity.
  rewrite (client_code_run (S d) _ _ MacOS (lookup_allocate_new _ _)).
  eexists. split; [reflexivity |].
  split; [simpl; rewrite <- !app_assoc; reflexivity |].
  split; [| reflexivity].
  simpl. rewrite !append_assoc. reflexivity.
Qed.

(** ** The class statements *)

(** X9. Each concrete subclass of an interface defines, in its own body, every
    method the interface declares abstract, and a call on it resolves to
    that definition, never to the [pass] of the interface. *)
Theorem concrete_classes_implement_interface (C c : cls) (name : string) :
  In C [Button; Checkbox; GUIToolkitFactory] ->
  issubclass c C = true ->
  c <> C ->
  In name (abstractmethods C) ->
  exists f,
    assoc name (namespace c) = Some f /\
    lookup_attr c name = Some f /\
    isabstractmethod f = false.
Proof.
  intros HC Hsub Hne Hname. simpl in HC.
  destruct HC as [<- | [<- | [<- | []]]];
    destruct c; try discriminate Hsub; try congruence;
    simpl in Hname;
    repeat (destruct Hname as [<- | Hname]); try contradiction;
    eexists; repeat split.
Qed.

Lemma concrete_classes_implement_interface_witness :
  exists f,
    assoc "toggle_with_button" (namespace MacOSCheckbox) = Some f /\
    lookup_attr MacOSCheckbox "toggle_with_button" = Some f /\
    isabstractmethod f = false.
Proof.
  apply (concrete_classes_implement_interface Checkbox MacOSCheckbox
           "toggle_with_button").
  - simpl. right. left. reflexivity.
  - reflexivity.
  - discriminate.
  - simpl. right. left. reflexivity.
Defined.

(** X10. A method called, with a frame left, with the wrong number of
    arguments raises [TypeError] before its body does anything, and the world
    is as before: with too few, the error names the parameters left without a
    value ([button], for a toggle given none); with too many, it gives the
    count received, [self] included. *)
Theorem call_wrong_argument_count (d : nat) (w : world) (l : loc) (c : cls)
    (name : string) (args : list value) :
  heap w !! l = Some c ->
  In name (attribute_names c) ->
  length args <> arity name ->
  call (S d) (VRef l) name args w =
    (Raise (binding_error name (length args)), w).
Proof.
  intros Hl Hin Hlen.
  destruct c; simpl in Hin; repeat (destruct Hin as [<- | Hin]);
    try contradiction;
    match goal with
    | |- call _ _ ?n _ _ = _ =>
        rewrite (call_resolved d w l _ n _ args Hl eq_refl)
    end; cbn [code];
    destruct args as [| a [| a' args]]; cbv in Hlen; try congruence;
    reflexivity.
Qed.

Lemma call_wrong_argument_count_witness :
  call 3 (VRef 2) "toggle_with_button" [] sample_world =
    (Raise (TypeError_missing "toggle_with_button" ["button"]), sample_world).
Proof.
  apply (call_wrong_argument_count 2 sample_world 2 WindowsCheckbox
           "toggle_with_button" []).
  - reflexivity.
  - simpl. right. left. reflexivity.
  - discriminate.
Defined.
